(** * Transactional position ledger of the IB paper-trading tool

    A shallow embedding of [agent_tools/ib_paper_trading.py]: the three
    tool entry points [buy], [sell] and [get_ib_account_summary], with the
    helpers they call, written as programs over the external calls they
    make (broker gateway, price lookup, configuration, ledger file, file
    lock).  Programs are interpreted sequentially by [run] and, for
    concurrent requests, interleaved by [run_schedule].

    The gateway objects are those of ib_insync, which the module imports:
    an [OrderStatus] has no [commission] and a [Position] has no
    [marketPrice] or [marketValue], so reading them raises.

    Decimal amounts (prices, cash) are exact rationals [Q]; the rounding of
    binary floating point is outside the model.  The statements below
    either hold whichever way a comparison of amounts falls, or are made at
    whole amounts, which binary floating point represents exactly.  A
    position dictionary maps every key, share counts included, to a [Q].

    Taken not to raise: [ib.disconnect()], [ib.sleep()], taking and
    releasing the file lock, and reading the configuration.  Output printed
    to the console is left out. *)

From Stdlib Require Import ZArith QArith Lia.
From stdpp Require Import base gmap strings list.

#[local] Set Warnings "-clear-no-such-hyp".

Local Open Scope Z_scope.

(** ** Data model *)

(** Python values stored in the dictionaries the tool builds. *)
Inductive pyval :=
| VNone
| VBool (b : bool)
| VInt (z : Z)
| VNum (q : Q)
| VStr (s : string).

(** Exceptions; [RuntimeError] stands for any other subclass of
    [Exception]. *)
Inductive exn :=
| ValueError (msg : string)
| ConnectionError (msg : string)
| KeyError (msg : string)
| TypeError (msg : string)
| OSError (msg : string)
| AttributeError (msg : string)
| RuntimeError (msg : string).

(** [str(e)] *)
Definition str_exn (e : exn) : string :=
  match e with
  | ValueError m | ConnectionError m | KeyError m
  | TypeError m | OSError m | AttributeError m | RuntimeError m => m
  end.

(** What the gateway reports for a placed order: [trade.order.orderId] and
    the fields of [trade.orderStatus] that the tool reads and that an
    ib_insync [OrderStatus] has. *)
Record ib_trade := {
  orderId : Z;
  status : string;
  avgFillPrice : Q
}.

(** [trade.orderStatus.commission]: an ib_insync [OrderStatus] (orderId,
    status, filled, remaining, avgFillPrice, permId, parentId,
    lastFillPrice, clientId, whyHeld, mktCapPrice) has no such attribute,
    so the read raises. *)
Definition orderStatus_commission (trade : ib_trade) : exn + Q :=
  inl (AttributeError "'OrderStatus' object has no attribute 'commission'").

(** One item of [ib.positions()], an ib_insync [Position] (account,
    contract, position, avgCost); [pos_symbol] is [None] when the contract
    has no [symbol] attribute. *)
Record ib_position := {
  pos_symbol : option string;
  pos_position : Z;
  pos_avgCost : Q
}.

(** [pos.marketPrice] and [pos.marketValue]: a [Position] has neither. *)
Definition position_marketPrice (pos : ib_position) : exn + Q :=
  inl (AttributeError "'Position' object has no attribute 'marketPrice'").

Definition position_marketValue (pos : ib_position) : exn + Q :=
  inl (AttributeError "'Position' object has no attribute 'marketValue'").

(** One entry of the summary's [positions]. *)
Record position_entry := {
  pe_symbol : string;
  pe_position : Z;
  pe_market_price : Q;
  pe_market_value : Q;
  pe_avg_cost : Q
}.

(** One item of [ib.accountValues()]; [av_value] is [None] when
    [float(value.value)] raises. *)
Record account_value := {
  av_tag : string;
  av_value : option Q
}.

(** One line of [position.jsonl]. *)
Record trade_record := {
  rec_date : option string;
  rec_id : Z;
  rec_action : string;
  rec_symbol : string;
  rec_amount : Z;
  rec_ib_order_id : option pyval;
  rec_fill_price : pyval;
  rec_commission : pyval;
  rec_positions : gmap string Q;
  rec_ib_execution : gmap string pyval
}.

(** The dictionaries [buy] and [sell] return, one constructor per [return]
    statement shape. *)
Inductive result :=
| ErrAmount (symbol : string) (date : option string)
| ErrConnect (error : string) (symbol : string) (date : option string)
| ErrPrice (symbol : string) (date : option string)
| ErrCash (required_cash cash_available : Q)
    (symbol : string) (date : option string)
| ErrOrder (error : option pyval) (symbol : string) (date : option string)
    (execution_details : gmap string pyval)
| ErrNoPosition (symbol : string) (date : option string)
| ErrShares (have : Q) (want_to_sell : Z)
    (symbol : string) (date : option string)
| ErrIBShares (ib_pos : Z) (want_to_sell : Z)
    (symbol : string) (date : option string)
| ErrUnexpected (error : string) (symbol : string) (date : option string)
| Traded (new_position : gmap string Q)
    (execution_details : gmap string pyval) (actual_price : pyval).

(** The dictionary [get_ib_account_summary] returns. *)
Inductive summary :=
| SummaryOk (account_summary : gmap string Q)
    (positions : list position_entry) (timestamp : string)
| SummaryErr (error : string).

(** ** External calls *)

Inductive cmd : Type -> Type :=
| GetConfig (key : string) : cmd (option string)
| WriteConfig (key : string) (v : pyval) : cmd (exn + unit)
| IBConnect : cmd (exn + unit)
| IBDisconnect : cmd unit
| IBPositions : cmd (exn + list ib_position)
| IBAccountValues : cmd (exn + list account_value)
| IBQualify (symbol : string) : cmd (exn + unit)
| IBPlaceOrder (symbol action : string) (quantity : Z) : cmd (exn + ib_trade)
| IBSleep (secs : Z) : cmd unit
| LockAcquire (sig : string) : cmd unit
| LockRelease (sig : string) : cmd unit
| GetLatestPosition (date : option string) (sig : string)
    : cmd (gmap string Q * Z)
| GetOpenPrice (date : option string) (symbol : string) : cmd (exn + Q)
| AppendRecord (sig : string) (r : trade_record) : cmd (exn + unit)
| Now : cmd string.

(** What is logged for each call, made or attempted. *)
Inductive event :=
| EGetConfig (key : string)
| EWriteConfig (key : string)
| EConnect
| EDisconnect
| EPositions
| EAccountValues
| EQualify (symbol : string)
| EPlaceOrder (symbol action : string) (quantity : Z)
| ESleep
| EAcquire (sig : string)
| ERelease (sig : string)
| ERead (sig : string)
| EPrice (symbol : string)
| EAppend (sig : string)
| ENow.

Definition event_of {X} (c : cmd X) : event :=
  match c with
  | GetConfig k => EGetConfig k
  | WriteConfig k _ => EWriteConfig k
  | IBConnect => EConnect
  | IBDisconnect => EDisconnect
  | IBPositions => EPositions
  | IBAccountValues => EAccountValues
  | IBQualify s => EQualify s
  | IBPlaceOrder s a q => EPlaceOrder s a q
  | IBSleep _ => ESleep
  | LockAcquire s => EAcquire s
  | LockRelease s => ERelease s
  | GetLatestPosition _ s => ERead s
  | GetOpenPrice _ s => EPrice s
  | AppendRecord s _ => EAppend s
  | Now => ENow
  end.

(** Calls on the Exchange Gateway ([ib.*]). *)
Definition is_gateway (e : event) : bool :=
  match e with
  | EConnect | EDisconnect | EPositions | EAccountValues
  | EQualify _ | EPlaceOrder _ _ _ | ESleep => true
  | _ => false
  end.

(** Accesses to the ledger file. *)
Definition is_ledger (e : event) : bool :=
  match e with
  | ERead _ | EAppend _ => true
  | _ => false
  end.

Definition is_disconnect (e : event) : bool :=
  match e with EDisconnect => true | _ => false end.

Definition is_order (e : event) : bool :=
  match e with EPlaceOrder _ _ _ => true | _ => false end.

Definition is_append (e : event) : bool :=
  match e with EAppend _ => true | _ => false end.

(** ** Programs *)

Inductive prog (A : Type) : Type :=
| Ret (a : A)
| Throw (e : exn)
| Do {X : Type} (c : cmd X) (k : X -> prog A).
Arguments Ret {A} a.
Arguments Throw {A} e.
Arguments Do {A X} c k.

Fixpoint bind {A B} (p : prog A) (f : A -> prog B) : prog B :=
  match p with
  | Ret a => f a
  | Throw e => Throw e
  | Do c k => Do c (fun x => bind (k x) f)
  end.

#[export] Instance prog_ret : MRet prog := @Ret.
#[export] Instance prog_bind : MBind prog := fun A B f p => bind p f.

(** [try: p  except Exception as e: h e] *)
Fixpoint catch {A} (p : prog A) (h : exn -> prog A) : prog A :=
  match p with
  | Ret a => Ret a
  | Throw e => h e
  | Do c k => Do c (fun x => catch (k x) h)
  end.

(** [try: p  finally: f] *)
Fixpoint finally {A} (p : prog A) (f : prog unit) : prog A :=
  match p with
  | Ret a => bind f (fun _ => Ret a)
  | Throw e => bind f (fun _ => Throw e)
  | Do c k => Do c (fun x => finally (k x) f)
  end.

(** A call that raises what it reports as an error. *)
Definition call {X} (c : cmd (exn + X)) : prog X :=
  Do c (fun r => match r with inl e => Throw e | inr x => Ret x end).

(** A call that cannot raise. *)
Definition exec {X} (c : cmd X) : prog X := Do c Ret.

(** The value of an expression that may raise. *)
Definition raise_or_return {X} (r : exn + X) : prog X :=
  match r with inl e => Throw e | inr x => Ret x end.

(** The outcome of [p] as a value, for handlers that return early. *)
Definition attempt {A} (p : prog A) : prog (exn + A) :=
  catch (bind p (fun x => Ret (inr x))) (fun e => Ret (inl e)).

(** ** The environment and the shared store *)

(** What the outside world answers during one request. *)
Record world := {
  w_config : gmap string string;
  w_initial_cash : Q;
  w_connect : option exn;
  w_price : option string -> string -> exn + Q;
  w_positions : exn + list ib_position;
  w_account_values : exn + list account_value;
  w_qualify : option exn;
  w_place : exn + ib_trade;
  w_append : option exn;
  w_write_config : option exn;
  w_now : string
}.

(** What requests share: one ledger and one lock per identity, the
    process-wide flags, and the log of calls.  Ledgers and locks are keyed
    by the signature string; two strings that name the same directory on
    disk are not identified, and every statement below is about the one
    signature a request runs under. *)
Record store := {
  ledgers : gmap string (list trade_record);
  locks : gset string;
  flags : gmap string pyval;
  events : list event
}.

Definition ledger_of (ledgers : gmap string (list trade_record))
    (sig : string) : list trade_record :=
  default [] (ledgers !! sig).

(** Modelled from the spec: the step of [readLatest] below, which keeps
    the record with the higher [sequence_id]. *)
Definition later_record (best : gmap string Q * Z) (r : trade_record)
  : gmap string Q * Z :=
  if best.2 <? rec_id r then (rec_positions r, rec_id r) else best.

(** Modelled from the spec: [get_latest_position] of [tools/price_tools.py]
    is not among the sources.  Per the Ledger Store contract, [readLatest]
    returns the snapshot and the sequence of the record with the highest
    [sequence_id], and [{CASH: configured_initial_cash}] with sequence 0
    when the ledger has no record. *)
Definition readLatest (initial_cash : Q) (l : list trade_record)
  : gmap string Q * Z :=
  fold_left later_record l ({[ "CASH" := initial_cash ]}, 0).

Definition raise_if {X} (o : option exn) (x : X) : exn + X :=
  match o with Some e => inl e | None => inr x end.

Definition log (e : event) (st : store) : store :=
  {| ledgers := ledgers st; locks := locks st; flags := flags st;
     events := events st ++ [e] |}.

(** One external call against the store; [None] when the call blocks, which
    only [LockAcquire] on a held lock does. *)
Definition handle {X} (w : world) (c : cmd X) (st : store)
  : option (X * store) :=
  let st := log (event_of c) st in
  match c in cmd X return option (X * store) with
  | GetConfig k => Some (w_config w !! k, st)
  | WriteConfig k v =>
      match w_write_config w with
      | Some e => Some (inl e, st)
      | None => Some (inr tt,
          {| ledgers := ledgers st; locks := locks st;
             flags := <[k := v]> (flags st); events := events st |})
      end
  | IBConnect => Some (raise_if (w_connect w) tt, st)
  | IBDisconnect => Some (tt, st)
  | IBPositions => Some (w_positions w, st)
  | IBAccountValues => Some (w_account_values w, st)
  | IBQualify _ => Some (raise_if (w_qualify w) tt, st)
  | IBPlaceOrder _ _ _ => Some (w_place w, st)
  | IBSleep _ => Some (tt, st)
  | LockAcquire sig =>
      if decide (sig ∈ locks st) then None
      else Some (tt,
          {| ledgers := ledgers st; locks := locks st ∪ {[ sig ]};
             flags := flags st; events := events st |})
  | LockRelease sig =>
      Some (tt,
          {| ledgers := ledgers st; locks := locks st ∖ {[ sig ]};
             flags := flags st; events := events st |})
  | GetLatestPosition _ sig =>
      Some (readLatest (w_initial_cash w) (ledger_of (ledgers st) sig), st)
  | GetOpenPrice d s => Some (w_price w d s, st)
  | AppendRecord sig r =>
      match w_append w with
      | Some e => Some (inl e, st)
      | None => Some (inr tt,
          {| ledgers :=
               <[sig := ledger_of (ledgers st) sig ++ [r]]> (ledgers st);
             locks := locks st; flags := flags st; events := events st |})
      end
  | Now => Some (w_now w, st)
  end.

Inductive outcome (A : Type) :=
| Returned (a : A)
| Raised (e : exn)
| Blocked.
Arguments Returned {A} a.
Arguments Raised {A} e.
Arguments Blocked {A}.

(** One request run alone, to its end. *)
Fixpoint run {A} (w : world) (p : prog A) (st : store) : outcome A * store :=
  match p with
  | Ret a => (Returned a, st)
  | Throw e => (Raised e, st)
  | Do c k =>
      match handle w c st with
      | None => (Blocked, st)
      | Some (x, st') => run w (k x) st'
      end
  end.

(** ** The tool *)

(** [with _position_lock(signature): body] *)
Definition _position_lock {A} (signature : string) (body : prog A) : prog A :=
  _ ← exec (LockAcquire signature);
  finally body (exec (LockRelease signature)).

Definition _connect_ib : prog unit :=
  catch (call IBConnect)
    (fun e =>
       Throw (ConnectionError ("❌ Failed to connect to IB: " +:+ str_exn e))).

Fixpoint find_position (positions : list ib_position) (symbol : string) : Z :=
  match positions with
  | [] => 0
  | pos :: rest =>
      if decide (pos_symbol pos = Some symbol) then pos_position pos
      else find_position rest symbol
  end.

Definition _get_ib_position (symbol : string) : prog Z :=
  positions ← call IBPositions;
  mret (find_position positions symbol).

(** [x > 0] on decimals *)
Definition Qpos_bool (x : Q) : bool := negb (Qle_bool x 0).

(** [x < y] on decimals *)
Definition Qlt_bool (x y : Q) : bool := negb (Qle_bool y x).

(** The three dictionaries [_execute_ib_order] returns. *)
Definition order_accepted (symbol action : string) (quantity : Z)
    (trade : ib_trade) (fill_price : pyval) (commission : Q)
  : gmap string pyval :=
  <["success" := VBool true]>
  (<["order_id" := VInt (orderId trade)]>
  (<["symbol" := VStr symbol]>
  (<["action" := VStr action]>
  (<["quantity" := VInt quantity]>
  (<["status" := VStr (status trade)]>
  (<["fill_price" := fill_price]>
  (<["commission" := VNum commission]> ∅))))))).

Definition order_not_filled (trade : ib_trade) : gmap string pyval :=
  <["success" := VBool false]>
  (<["error" := VStr ("Order not filled. Status: " +:+ status trade)]>
  (<["order_id" := VInt (orderId trade)]> ∅)).

Definition order_error (e : exn) : gmap string pyval :=
  <["success" := VBool false]> (<["error" := VStr (str_exn e)]> ∅).

Definition accepted_status (s : string) : bool :=
  bool_decide (s ∈ ["Filled"; "PreSubmitted"; "Submitted"]).

(** [avgFillPrice if avgFillPrice > 0 else 0] *)
Definition fill_price_of (trade : ib_trade) : pyval :=
  if Qpos_bool (avgFillPrice trade) then VNum (avgFillPrice trade)
  else VInt 0.

Definition _execute_ib_order (symbol : string) (quantity : Z) (action : string)
  : prog (gmap string pyval) :=
  catch
    (_ ← call (IBQualify symbol);
     trade ← call (IBPlaceOrder symbol action quantity);
     _ ← exec (IBSleep 2);
     if accepted_status (status trade) then
       let fill_price := fill_price_of trade in
       commission ← raise_or_return (orderStatus_commission trade);
       mret (order_accepted symbol action quantity trade fill_price
               commission)
     else mret (order_not_filled trade))
    (fun e => mret (order_error e)).

(** Truth value of [d.get(key)]. *)
Definition truthy (v : option pyval) : bool :=
  match v with
  | None | Some VNone => false
  | Some (VBool b) => b
  | Some (VInt z) => negb (z =? 0)
  | Some (VNum q) => negb (Qeq_bool q 0)
  | Some (VStr s) => negb (String.eqb s "")
  end.

(** [v * amount] as the cash update uses it: a [TypeError] when [v] is not
    a number (for a string, from the arithmetic on the product). *)
Definition py_mul (v : pyval) (amount : Z) : prog Q :=
  match v with
  | VNum q => mret (q * inject_Z amount)%Q
  | VInt z => mret (inject_Z (z * amount))
  | VBool b => mret (inject_Z (if b then amount else 0))
  | VNone | VStr _ => Throw (TypeError "unsupported operand type(s) for *")
  end.

Definition cash_of (p : gmap string Q) : Q := default 0%Q (p !! "CASH").

(** The snapshot after a buy: the cost out of the cash, then the amount
    onto the holding. *)
Definition buy_position (current_position : gmap string Q) (symbol : string)
    (amount : Z) (actual_cost : Q) : gmap string Q :=
  let new_position := current_position in
  let new_position :=
    <["CASH" := (cash_of new_position - actual_cost)%Q]> new_position in
  <[symbol := (default 0%Q (new_position !! symbol) + inject_Z amount)%Q]>
    new_position.

(** The snapshot after a sell: the amount out of the holding, then the
    proceeds onto the cash. *)
Definition sell_position (current_position : gmap string Q) (symbol : string)
    (amount : Z) (actual_proceeds : Q) : gmap string Q :=
  let new_position := current_position in
  let new_position :=
    <[symbol := (default 0%Q (new_position !! symbol) - inject_Z amount)%Q]>
      new_position in
  <["CASH" := (cash_of new_position + actual_proceeds)%Q]> new_position.

Definition buy (symbol : string) (amount : Z) : prog result :=
  signature ← exec (GetConfig "SIGNATURE");
  match signature with
  | None => Throw (ValueError "SIGNATURE environment variable is not set")
  | Some signature =>
  today_date ← exec (GetConfig "TODAY_DATE");
  if amount <=? 0 then mret (ErrAmount symbol today_date) else
  ib ← attempt _connect_ib;
  match ib with
  | inl (ConnectionError m) => mret (ErrConnect m symbol today_date)
  | inl e => Throw e
  | inr _ =>
  catch
    ('(current_position, current_action_id) ←
       _position_lock signature
         (exec (GetLatestPosition today_date signature));
     price ← attempt (call (GetOpenPrice today_date symbol));
     match price with
     | inl (KeyError _) =>
         _ ← exec IBDisconnect; mret (ErrPrice symbol today_date)
     | inl e => Throw e
     | inr this_symbol_price =>
     let required_cash := (this_symbol_price * inject_Z amount)%Q in
     if Qlt_bool (cash_of current_position) required_cash then
       _ ← exec IBDisconnect;
       mret (ErrCash required_cash (cash_of current_position)
               symbol today_date)
     else
     execution_result ← _execute_ib_order symbol amount "BUY";
     if negb (truthy (execution_result !! "success")) then
       _ ← exec IBDisconnect;
       mret (ErrOrder (execution_result !! "error") symbol today_date
               execution_result)
     else
     let actual_price :=
       default (VNum this_symbol_price) (execution_result !! "fill_price") in
     actual_cost ← py_mul actual_price amount;
     let new_position :=
       buy_position current_position symbol amount actual_cost in
     _ ← _position_lock signature
           (call (AppendRecord signature
              {| rec_date := today_date;
                 rec_id := current_action_id + 1;
                 rec_action := "buy";
                 rec_symbol := symbol;
                 rec_amount := amount;
                 rec_ib_order_id := execution_result !! "order_id";
                 rec_fill_price := actual_price;
                 rec_commission :=
                   default (VInt 0) (execution_result !! "commission");
                 rec_positions := new_position;
                 rec_ib_execution := execution_result |}));
     _ ← call (WriteConfig "IF_TRADE" (VBool true));
     _ ← exec IBDisconnect;
     mret (Traded new_position execution_result actual_price)
     end)
    (fun e =>
       _ ← exec IBDisconnect;
       mret (ErrUnexpected (str_exn e) symbol today_date))
  end
  end.

Definition sell (symbol : string) (amount : Z) : prog result :=
  signature ← exec (GetConfig "SIGNATURE");
  match signature with
  | None => Throw (ValueError "SIGNATURE environment variable is not set")
  | Some signature =>
  today_date ← exec (GetConfig "TODAY_DATE");
  if amount <=? 0 then mret (ErrAmount symbol today_date) else
  ib ← attempt _connect_ib;
  match ib with
  | inl (ConnectionError m) => mret (ErrConnect m symbol today_date)
  | inl e => Throw e
  | inr _ =>
  catch
    ('(current_position, current_action_id) ←
       _position_lock signature
         (exec (GetLatestPosition today_date signature));
     match current_position !! symbol with
     | None =>
         _ ← exec IBDisconnect; mret (ErrNoPosition symbol today_date)
     | Some held =>
     if Qlt_bool held (inject_Z amount) then
       _ ← exec IBDisconnect;
       mret (ErrShares held amount symbol today_date)
     else
     price ← attempt (call (GetOpenPrice today_date symbol));
     match price with
     | inl (KeyError _) =>
         _ ← exec IBDisconnect; mret (ErrPrice symbol today_date)
     | inl e => Throw e
     | inr this_symbol_price =>
     ib_position ← _get_ib_position symbol;
     if ib_position <? amount then
       _ ← exec IBDisconnect;
       mret (ErrIBShares ib_position amount symbol today_date)
     else
     execution_result ← _execute_ib_order symbol amount "SELL";
     if negb (truthy (execution_result !! "success")) then
       _ ← exec IBDisconnect;
       mret (ErrOrder (execution_result !! "error") symbol today_date
               execution_result)
     else
     let actual_price :=
       default (VNum this_symbol_price) (execution_result !! "fill_price") in
     actual_proceeds ← py_mul actual_price amount;
     let new_position :=
       sell_position current_position symbol amount actual_proceeds in
     _ ← _position_lock signature
           (call (AppendRecord signature
              {| rec_date := today_date;
                 rec_id := current_action_id + 1;
                 rec_action := "sell";
                 rec_symbol := symbol;
                 rec_amount := amount;
                 rec_ib_order_id := execution_result !! "order_id";
                 rec_fill_price := actual_price;
                 rec_commission :=
                   default (VInt 0) (execution_result !! "commission");
                 rec_positions := new_position;
                 rec_ib_execution := execution_result |}));
     _ ← call (WriteConfig "IF_TRADE" (VBool true));
     _ ← exec IBDisconnect;
     mret (Traded new_position execution_result actual_price)
     end
     end)
    (fun e =>
       _ ← exec IBDisconnect;
       mret (ErrUnexpected (str_exn e) symbol today_date))
  end
  end.

(** The loop over [account_values]: the four tags kept, [float] of each. *)
Fixpoint collect_account (values : list account_value)
    (account_summary : gmap string Q) : prog (gmap string Q) :=
  match values with
  | [] => mret account_summary
  | value :: rest =>
      if bool_decide (av_tag value ∈
           ["NetLiquidation"; "CashBalance"; "BuyingPower";
            "GrossPositionValue"])
      then
        match av_value value with
        | None => Throw (ValueError "could not convert string to float")
        | Some v => collect_account rest (<[av_tag value := v]> account_summary)
        end
      else collect_account rest account_summary
  end.

Definition has_symbol (pos : ib_position) : bool :=
  match pos_symbol pos with Some _ => true | None => false end.

(** [float(x) if x else 0] *)
Definition float_or_zero (x : Q) : Q := if Qeq_bool x 0 then 0%Q else x.

(** The loop over [positions]: one entry for each position whose contract
    has a symbol. *)
Fixpoint summarize_positions (positions : list ib_position)
    (position_summary : list position_entry) : prog (list position_entry) :=
  match positions with
  | [] => mret position_summary
  | pos :: rest =>
      match pos_symbol pos with
      | Some symbol =>
          match position_marketPrice pos, position_marketValue pos with
          | inl e, _ => Throw e
          | inr _, inl e => Throw e
          | inr market_price, inr market_value =>
              summarize_positions rest
                (position_summary
                 ++ [ {| pe_symbol := symbol;
                         pe_position := pos_position pos;
                         pe_market_price := float_or_zero market_price;
                         pe_market_value := float_or_zero market_value;
                         pe_avg_cost := float_or_zero (pos_avgCost pos) |} ])
          end
      | None => summarize_positions rest position_summary
      end
  end.

Definition get_ib_account_summary : prog summary :=
  catch
    (_ ← _connect_ib;
     account_values ← call IBAccountValues;
     account_summary ← collect_account account_values ∅;
     positions ← call IBPositions;
     position_summary ← summarize_positions positions [];
     _ ← exec IBDisconnect;
     timestamp ← exec Now;
     mret (SummaryOk account_summary position_summary timestamp))
    (fun e => mret (SummaryErr (str_exn e))).

(** ** Concurrent requests *)

(** A request in flight: what the world answers it, and what is left of
    its program. *)
Definition thread : Type := world * prog result.

(** One external call of one request; [None] when the request has ended or
    is blocked on the lock. *)
Definition step_thread (t : thread) (st : store) : option (thread * store) :=
  match t.2 with
  | Do c k =>
      match handle t.1 c st with
      | Some (x, st') => Some ((t.1, k x), st')
      | None => None
      end
  | _ => None
  end.

(** The requests [ts] interleaved as [sched] says: each entry names the
    request that makes its next call. *)
Fixpoint run_schedule (sched : list nat) (ts : list thread) (st : store)
  : option (list thread * store) :=
  match sched with
  | [] => Some (ts, st)
  | i :: rest =>
      match ts !! i with
      | None => None
      | Some t =>
          match step_thread t st with
          | None => None
          | Some (t', st') => run_schedule rest (<[i := t']> ts) st'
          end
      end
  end.

(** ** Observations on a run *)

Fixpoint select (f : event -> bool) (l : list event) : list event :=
  match l with
  | [] => []
  | e :: l => if f e then e :: select f l else select f l
  end.

Definition count_events (f : event -> bool) (l : list event) : nat :=
  length (select f l).

(** The calls logged between [st] and a later [st']. *)
Definition new_events (st st' : store) : list event :=
  drop (length (events st)) (events st').



Definition empty_store : store :=
  {| ledgers := ∅; locks := ∅; flags := ∅; events := [] |}.

(** A buy or sell request, and a sequence of them served one after the
    other, each against what the world answers it. *)
Inductive request :=
| Buy (symbol : string) (amount : Z)
| Sell (symbol : string) (amount : Z).

Definition request_prog (r : request) : prog result :=
  match r with
  | Buy symbol amount => buy symbol amount
  | Sell symbol amount => sell symbol amount
  end.


(** The identity and the trade date a request runs under. *)
Definition signature_of (w : world) : option string :=
  w_config w !! "SIGNATURE".

Definition today_of (w : world) : option string :=
  w_config w !! "TODAY_DATE".

(** The Position Projector's view for identity [sig]. *)
Definition current_position (w : world) (st : store) (sig : string)
  : gmap string Q :=
  (readLatest (w_initial_cash w) (ledger_of (ledgers st) sig)).1.

Definition current_action_id (w : world) (st : store) (sig : string) : Z :=
  (readLatest (w_initial_cash w) (ledger_of (ledgers st) sig)).2.

(** The local record holds no [symbol], or fewer than [amount]. *)
Definition short_locally (w : world) (st : store) (sig symbol : string)
    (amount : Z) : bool :=
  match current_position w st sig !! symbol with
  | None => true
  | Some held => Qlt_bool held (inject_Z amount)
  end.

Definition request_symbol (r : request) : string :=
  match r with Buy symbol _ | Sell symbol _ => symbol end.

(** The two local-record rejections of a sell: no entry for the symbol, or
    fewer shares than asked. *)
Definition insufficient_shares (r : result) : bool :=
  match r with
  | ErrNoPosition _ _ | ErrShares _ _ _ _ => true
  | _ => false
  end.

(** A sell rejected on the local record with the gateway left alone and
    the ledger as it was. *)
Definition rejected_without_gateway (w : world) (st : store)
    (symbol : string) (amount : Z) : Prop :=
  exists r st',
    run w (sell symbol amount) st = (Returned r, st')
    /\ insufficient_shares r = true
    /\ count_events is_gateway (new_events st st') = 0%nat
    /\ ledgers st' = ledgers st.


(** ** Scenarios *)

Definition agent_config : gmap string string :=
  <["SIGNATURE" := "agent"]> (<["TODAY_DATE" := "2025-01-02"]> ∅).

(** A world in which everything but the listed answers goes well. *)
Definition scenario (config : gmap string string) (initial_cash : Q)
    (price : Q) (remote : list ib_position) (place : exn + ib_trade)
    (append : option exn) : world :=
  {| w_config := config;
     w_initial_cash := initial_cash;
     w_connect := None;
     w_price := fun _ _ => inr price;
     w_positions := inr remote;
     w_account_values := inr [];
     w_qualify := None;
     w_place := place;
     w_append := append;
     w_write_config := None;
     w_now := "2025-01-02T09:30:00" |}.

Definition filled (price : Q) : exn + ib_trade :=
  inr {| orderId := 7; status := "Filled"; avgFillPrice := price |}.

Definition remote_xyz (n : Z) : list ib_position :=
  [ {| pos_symbol := Some "XYZ"; pos_position := n; pos_avgCost := 0%Q |} ].

(** A store whose only ledger is the agent's, with one record: 10 XYZ
    bought at 50, leaving the snapshot [positions]. *)
Definition store_at (positions : gmap string Q) : store :=
  {| ledgers :=
       {[ "agent" :=
          [ {| rec_date := Some "2025-01-02"; rec_id := 1;
               rec_action := "buy"; rec_symbol := "XYZ"; rec_amount := 10;
               rec_ib_order_id := Some (VInt 7);
               rec_fill_price := VNum 50; rec_commission := VNum 0;
               rec_positions := positions;
               rec_ib_execution := ∅ |} ] ]};
     locks := ∅; flags := ∅; events := [] |}.

(** The spec's state after its first scenario. *)
Definition cash_9500_xyz_10 : gmap string Q :=
  <["CASH" := 9500%Q]> (<["XYZ" := 10%Q]> ∅).

Definition after_first_buy : store := store_at cash_9500_xyz_10.

(** The gateway accepts the order and reports no fill price yet. *)
Definition submitted_unpriced : exn + ib_trade :=
  inr {| orderId := 7; status := "Submitted"; avgFillPrice := 0%Q |}.


(** Two buyers of 10 XYZ at 60 on an account of 1000: each can pay, both
    cannot. *)
Definition buyer : world :=
  scenario agent_config 1000 60 [] (filled 60) None.

(** The first request reads the ledger and releases the gate, the second
    does the same, then each in turn places its order. *)
Definition read_read_order_order : list nat :=
  replicate 6 0%nat ++ replicate 6 1%nat
  ++ replicate 5 0%nat ++ replicate 5 1%nat.

(** The session opens and the first query on it fails. *)
Definition dropped_session : world :=
  {| w_config := agent_config;
     w_initial_cash := 10000;
     w_connect := None;
     w_price := fun _ _ => inr 50%Q;
     w_positions := inr [];
     w_account_values := inl (ConnectionError "Not connected");
     w_qualify := None;
     w_place := filled 50;
     w_append := None;
     w_write_config := None;
     w_now := "2025-01-02T09:30:00" |}.

(** ** Further observations and scenarios *)

Definition request_amount (r : request) : Z :=
  match r with Buy _ amount | Sell _ amount => amount end.

(** The error dictionaries other than the catch-all one. *)
Definition is_rejection (r : result) : bool :=
  match r with
  | Traded _ _ _ | ErrUnexpected _ _ _ => false
  | _ => true
  end.

(** The error dictionaries returned before any order is attempted. *)
Definition is_validation_error (r : result) : bool :=
  match r with
  | ErrAmount _ _ | ErrConnect _ _ _ | ErrPrice _ _ | ErrCash _ _ _ _
  | ErrNoPosition _ _ | ErrShares _ _ _ _ | ErrIBShares _ _ _ _ => true
  | _ => false
  end.

(** The calls [_execute_ib_order] makes on the gateway. *)
Definition is_order_call (e : event) : bool :=
  match e with
  | EQualify _ | EPlaceOrder _ _ _ | ESleep => true
  | _ => false
  end.

Definition is_price (e : event) : bool :=
  match e with EPrice _ => true | _ => false end.

(** What the price lookup answers a request. *)
Definition reference_price (w : world) (req : request) : exn + Q :=
  w_price w (today_of w) (request_symbol req).

(** The tags [get_ib_account_summary] keeps. *)
Definition summary_tags : list string :=
  ["NetLiquidation"; "CashBalance"; "BuyingPower"; "GrossPositionValue"].

(** A kept tag whose value [float] cannot read. *)
Definition unreadable (value : account_value) : Prop :=
  av_tag value ∈ summary_tags /\ av_value value = None.

Definition with_connect (o : option exn) (w : world) : world :=
  {| w_config := w_config w; w_initial_cash := w_initial_cash w;
     w_connect := o; w_price := w_price w; w_positions := w_positions w;
     w_account_values := w_account_values w; w_qualify := w_qualify w;
     w_place := w_place w; w_append := w_append w;
     w_write_config := w_write_config w; w_now := w_now w |}.

Definition with_price (p : option string -> string -> exn + Q) (w : world)
  : world :=
  {| w_config := w_config w; w_initial_cash := w_initial_cash w;
     w_connect := w_connect w; w_price := p; w_positions := w_positions w;
     w_account_values := w_account_values w; w_qualify := w_qualify w;
     w_place := w_place w; w_append := w_append w;
     w_write_config := w_write_config w; w_now := w_now w |}.

Definition with_qualify (o : option exn) (w : world) : world :=
  {| w_config := w_config w; w_initial_cash := w_initial_cash w;
     w_connect := w_connect w; w_price := w_price w;
     w_positions := w_positions w;
     w_account_values := w_account_values w; w_qualify := o;
     w_place := w_place w; w_append := w_append w;
     w_write_config := w_write_config w; w_now := w_now w |}.

Definition with_account_values (v : exn + list account_value) (w : world)
  : world :=
  {| w_config := w_config w; w_initial_cash := w_initial_cash w;
     w_connect := w_connect w; w_price := w_price w;
     w_positions := w_positions w;
     w_account_values := v; w_qualify := w_qualify w;
     w_place := w_place w; w_append := w_append w;
     w_write_config := w_write_config w; w_now := w_now w |}.

(** The world of the spec's first scenario: 10000 in cash, XYZ quoted and
    filled at 50. *)
Definition calm : world := scenario agent_config 10000 50 [] (filled 50) None.

(** The world of its second: XYZ quoted and filled at 55, 10 held at the
    broker. *)
Definition calm_sell : world :=
  scenario agent_config 10000 55 (remote_xyz 10) (filled 55) None.

(** The gateway holds 10 XYZ under a contract listed after one without a
    symbol and one for ABC. *)
Definition remote_mixed : list ib_position :=
  [ {| pos_symbol := None; pos_position := 99; pos_avgCost := 0%Q |};
    {| pos_symbol := Some "ABC"; pos_position := 3; pos_avgCost := 0%Q |} ]
  ++ remote_xyz 10 ++ remote_xyz 25.

(** Account values: two kept tags, and a tag that is not kept whose value
    does not read as a number. *)
Definition account_values_ok : list account_value :=
  [ {| av_tag := "NetLiquidation"; av_value := Some 10000%Q |};
    {| av_tag := "Currency"; av_value := None |};
    {| av_tag := "CashBalance"; av_value := Some 9500%Q |} ].

(** A contract without a symbol attribute: the one kind of position the
    summary's loop passes over. *)
Definition remote_unnamed : list ib_position :=
  [ {| pos_symbol := None; pos_position := 99; pos_avgCost := 0%Q |} ].

(** The text of the exception raised by the read of the commission. *)
Definition no_commission : string :=
  "'OrderStatus' object has no attribute 'commission'".




(** * Properties *)

(** ** The interpreter *)

Lemma run_bind {A B} (w : world) (p : prog A) (f : A -> prog B) (st : store) :
  run w (bind p f) st =
  match run w p st with
  | (Returned a, st') => run w (f a) st'
  | (Raised e, st') => (Raised e, st')
  | (Blocked, st') => (Blocked, st')
  end.
Proof.
  revert st. induction p as [a|e|X c k IH]; intros st; cbn [bind run]; try done.
  destruct (handle w c st) as [[x st']|]; [apply IH|done].
Qed.

Lemma run_catch {A} (w : world) (p : prog A) (h : exn -> prog A) (st : store) :
  run w (catch p h) st =
  match run w p st with
  | (Raised e, st') => run w (h e) st'
  | other => other
  end.
Proof.
  revert st. induction p as [a|e|X c k IH]; intros st; cbn [catch run];
    try done.
  destruct (handle w c st) as [[x st']|]; [apply IH|done].
Qed.

(** A call only adds to the log. *)
Lemma handle_events {X} (w : world) (c : cmd X) (st st' : store) (x : X) :
  handle w c st = Some (x, st') -> events st' = events st ++ [event_of c].
Proof.
  destruct c; cbn; intros; repeat case_match; simplify_eq; done.
Qed.

Lemma run_events {A} (w : world) (p : prog A) (st : store) :
  events st `prefix_of` events (run w p st).2.
Proof.
  revert st. induction p as [a|e|X c k IH]; intros st; cbn [run]; try done.
  destruct (handle w c st) as [[x st']|] eqn:Hc; [|done].
  etrans; [|apply IH]. rewrite (handle_events _ _ _ _ _ Hc).
  by apply prefix_app_r.
Qed.

(** One request alone is the schedule that always picks it. *)
Lemma run_schedule_alone (w : world) (p : prog result) (st st' : store)
    (r : result) :
  run w p st = (Returned r, st') ->
  exists n, run_schedule (replicate n 0%nat) [(w, p)] st
            = Some ([(w, Ret r)], st').
Proof.
  revert st. induction p as [a|e|X c k IH]; intros st; cbn [run].
  - intros [= -> ->]. by exists 0%nat.
  - done.
  - destruct (handle w c st) as [[x st1]|] eqn:Hc; [|done].
    intros Hrun. destruct (IH x st1 Hrun) as [n Hn].
    exists (S n). cbn. by rewrite Hc.
Qed.

(** ** Observations *)

Lemma accepted_success s a q t f c :
  order_accepted s a q t f c !! "success" = Some (VBool true).
Proof. reflexivity. Qed.

Lemma accepted_fill_price s a q t f c :
  order_accepted s a q t f c !! "fill_price" = Some f.
Proof. reflexivity. Qed.

Lemma not_filled_success t :
  order_not_filled t !! "success" = Some (VBool false).
Proof. reflexivity. Qed.

Lemma error_success e : order_error e !! "success" = Some (VBool false).
Proof. reflexivity. Qed.

(** ** Running a request symbolically *)

Ltac sym_step :=
  cbn [run bind catch finally attempt call exec mbind mret prog_bind prog_ret
       raise_or_return orderStatus_commission
       handle log event_of raise_if _position_lock _connect_ib
       _get_ib_position _execute_ib_order py_mul fst snd
       ledgers locks flags events truthy negb default from_option id] in *;
  rewrite ?accepted_success, ?accepted_fill_price, ?not_filled_success,
    ?error_success in *.

Ltac lock_case :=
  match goal with
  | |- context [decide (?s ∈ ?L)] =>
      first [ rewrite (decide_False (P := s ∈ L)) by set_solver
            | destruct (decide (s ∈ L)) ]
  end.

Ltac world_case :=
  match goal with
  | H : w_config ?w !! ?k = _ |- context [w_config ?w !! ?k] => rewrite H
  | H : w_append ?w = _ |- context [w_append ?w] => rewrite H
  | H : w_connect ?w = _ |- context [w_connect ?w] => rewrite H
  | |- context [w_append ?w] => destruct (w_append w) eqn:?
  | |- context [w_write_config ?w] => destruct (w_write_config w) eqn:?
  | |- context [w_qualify ?w] => destruct (w_qualify w) eqn:?
  | |- context [w_connect ?w] => destruct (w_connect w) eqn:?
  | |- context [w_positions ?w] => destruct (w_positions w) eqn:?
  | |- context [w_place ?w] => destruct (w_place w) eqn:?
  end.

Ltac sym_exec :=
  repeat (sym_step; try lock_case;
          try (first [world_case | case_match]; try discriminate)).

(** The log after a run, as what was there before and what was added. *)
Ltac new_log :=
  unfold new_events, count_events;
  cbn [events log]; rewrite <- ?app_assoc, ?drop_app_length;
  cbn [app select is_gateway is_ledger is_disconnect is_order is_append
       length].

Ltac log_in H :=
  unfold new_events, count_events in H;
  cbn [events log] in H; rewrite <- ?app_assoc, ?drop_app_length in H;
  cbn [app select is_gateway is_ledger is_disconnect is_order is_append
       is_order_call is_price length] in H.

(** ** Missing identity *)

(** C9: with no SIGNATURE configured, buy and sell raise ValueError (they
    do not return an error dictionary), and the only call made before is
    the read of that configuration value: no gateway call, no ledger
    access. *)
Theorem no_signature_raises (w : world) (st : store) (symbol : string)
    (amount : Z) :
  signature_of w = None ->
  run w (buy symbol amount) st
    = (Raised (ValueError "SIGNATURE environment variable is not set"),
       log (EGetConfig "SIGNATURE") st)
  /\ run w (sell symbol amount) st
    = (Raised (ValueError "SIGNATURE environment variable is not set"),
       log (EGetConfig "SIGNATURE") st)
  /\ count_events is_gateway [EGetConfig "SIGNATURE"] = 0%nat
  /\ count_events is_ledger [EGetConfig "SIGNATURE"] = 0%nat.
Proof.
  unfold signature_of. intros Hs.
  unfold buy, sell. sym_step. rewrite Hs. done.
Qed.

Lemma no_signature_raises_witness :
  signature_of (scenario ∅ 10000 50 [] (filled 50) None) = None
  /\ run (scenario ∅ 10000 50 [] (filled 50) None) (buy "XYZ" 10)
       empty_store
     = (Raised (ValueError "SIGNATURE environment variable is not set"),
        log (EGetConfig "SIGNATURE") empty_store).
Proof.
  split; [reflexivity|].
  apply (no_signature_raises
           (scenario ∅ 10000 50 [] (filled 50) None) empty_store "XYZ" 10).
  reflexivity.
Defined.

(** ** Validation of the amount *)

(** C8: a buy with [amount <= 0] (identity configured) returns the
    "Amount must be positive" error without contacting the gateway (no
    connect, no order) and without appending to the ledger. *)
Theorem buy_nonpositive_amount (w : world) (st : store) (symbol s : string)
    (amount : Z) :
  signature_of w = Some s ->
  amount <= 0 ->
  exists st',
    run w (buy symbol amount) st
      = (Returned (ErrAmount symbol (today_of w)), st')
    /\ ledgers st' = ledgers st
    /\ count_events is_gateway (new_events st st') = 0%nat
    /\ count_events is_ledger (new_events st st') = 0%nat.
Proof.
  unfold signature_of, today_of. intros Hs Ha.
  unfold buy. sym_step. rewrite Hs. sym_step.
  destruct (Z.leb_spec amount 0) as [_|?]; [|lia].
  eexists. split; [reflexivity|]. by new_log.
Qed.

Lemma buy_nonpositive_amount_witness :
  exists st',
    run (scenario agent_config 10000 50 [] (filled 50) None)
        (buy "XYZ" 0) empty_store
      = (Returned (ErrAmount "XYZ" (Some "2025-01-02")), st')
    /\ ledgers st' = ledgers empty_store
    /\ count_events is_gateway (new_events empty_store st') = 0%nat
    /\ count_events is_ledger (new_events empty_store st') = 0%nat.
Proof.
  apply (buy_nonpositive_amount
           (scenario agent_config 10000 50 [] (filled 50) None)
           empty_store "XYZ" "agent" 0); [reflexivity | lia].
Defined.

(** ** Sells the local record cannot cover *)

(** C2, as the tool behaves: a sell (identity configured, amount positive,
    gate free) that the local record cannot cover never places an order,
    never queries the remote position and never appends to the ledger, but
    it does open a gateway session first.  When the connection succeeds the
    result is the local insufficient-shares error and the gateway saw
    exactly one connect and one disconnect; when it fails the result is the
    connection error. *)
Theorem sell_short_locally (w : world) (st : store) (symbol s : string)
    (amount : Z) :
  signature_of w = Some s ->
  s ∉ locks st ->
  0 < amount ->
  short_locally w st s symbol amount = true ->
  exists r st',
    run w (sell symbol amount) st = (Returned r, st')
    /\ ledgers st' = ledgers st
    /\ count_events is_append (new_events st st') = 0%nat
    /\ match w_connect w with
       | None =>
           insufficient_shares r = true
           /\ select is_gateway (new_events st st') = [EConnect; EDisconnect]
       | Some e =>
           r = ErrConnect ("❌ Failed to connect to IB: " +:+ str_exn e)
                 symbol (today_of w)
           /\ select is_gateway (new_events st st') = [EConnect]
       end.
Proof.
  unfold signature_of, today_of, short_locally, current_position.
  intros Hs Hl Ha Hshort. revert Hshort.
  unfold sell. sym_step. rewrite Hs. sym_step.
  destruct (Z.leb_spec amount 0) as [?|_]; [lia|].
  destruct (w_connect w) as [e|] eqn:Hc; sym_exec; intros; simplify_eq;
    try congruence.
  all: eexists _, _; (split; [reflexivity|]); by new_log.
Qed.

Lemma sell_short_locally_witness :
  exists r st',
    run (scenario agent_config 10000 55 (remote_xyz 10) (filled 55) None)
        (sell "XYZ" 100) after_first_buy = (Returned r, st')
    /\ ledgers st' = ledgers after_first_buy
    /\ count_events is_append (new_events after_first_buy st') = 0%nat
    /\ insufficient_shares r = true
    /\ select is_gateway (new_events after_first_buy st')
       = [EConnect; EDisconnect].
Proof.
  apply (sell_short_locally
           (scenario agent_config 10000 55 (remote_xyz 10) (filled 55) None)
           after_first_buy "XYZ" "agent" 100);
    [reflexivity | apply not_elem_of_empty | lia | reflexivity].
Defined.

(** C2 as stated fails: selling 100 XYZ against a local record of 10 is
    rejected, but only after the gateway was connected to. *)
Lemma sell_short_contacts_gateway :
  ~ rejected_without_gateway
      (scenario agent_config 10000 55 (remote_xyz 10) (filled 55) None)
      after_first_buy "XYZ" 100.
Proof.
  intros (r & st' & Hrun & _ & Hg & _).
  vm_compute in Hrun. injection Hrun as <- <-. vm_compute in Hg. discriminate.
Qed.

(** ** Programs that never write *)








(** ** Orders the gateway accepts *)

(** C1 fails on the tool, twice over.  The gateway accepts a buy of 10 XYZ
    and reports no fill price, the reference price being 50 and the cash
    10000: the order is placed, the read of the commission raises, and the
    buy returns "IB order failed" with nothing written, so nothing is
    settled at any price.  And the dictionary the success branch builds
    always has the key fill_price, zero when the average fill price is not
    positive, so the lookup that falls back on the reference price returns
    that zero and never the reference price. *)
Theorem unpriced_fill_is_never_settled :
  (exists st',
     run (scenario agent_config 10000 50 [] submitted_unpriced None)
         (buy "XYZ" 10) empty_store
       = (Returned
            (ErrOrder (Some (VStr no_commission)) "XYZ" (Some "2025-01-02")
               (order_error (AttributeError no_commission))),
          st')
     /\ select is_order (new_events empty_store st')
        = [EPlaceOrder "XYZ" "BUY" 10]
     /\ count_events is_append (new_events empty_store st') = 0%nat
     /\ ledgers st' = ledgers empty_store)
  /\ (forall symbol action quantity trade commission reference,
        default (VNum reference)
          (order_accepted symbol action quantity trade (fill_price_of trade)
             commission !! "fill_price")
        = fill_price_of trade)
  /\ (forall trade,
        submitted_unpriced = inr trade -> fill_price_of trade = VInt 0).
Proof.
  split; [|split].
  - eexists. split; [vm_compute; reflexivity|]. by vm_compute.
  - intros. by rewrite accepted_fill_price.
  - by intros trade [= <-].
Qed.

(** C7 fails on the tool.  From {CASH: 9500, XYZ: 10} at sequence 1, a sell
    of 4 XYZ that the gateway fills at 55 is placed and then reported as
    "IB order failed": the read of the commission raises.  The ledger is
    left at sequence 1 with {CASH: 9500, XYZ: 10}. *)
Theorem sell_scenario_is_not_recorded :
  exists st',
    run (scenario agent_config 10000 55 (remote_xyz 10) (filled 55) None)
        (sell "XYZ" 4) after_first_buy
      = (Returned
           (ErrOrder (Some (VStr no_commission)) "XYZ" (Some "2025-01-02")
              (order_error (AttributeError no_commission))),
         st')
    /\ select is_order (new_events after_first_buy st')
       = [EPlaceOrder "XYZ" "SELL" 4]
    /\ ledgers st' = ledgers after_first_buy
    /\ current_position
         (scenario agent_config 10000 55 (remote_xyz 10) (filled 55) None)
         st' "agent" = cash_9500_xyz_10
    /\ current_action_id
         (scenario agent_config 10000 55 (remote_xyz 10) (filled 55) None)
         st' "agent" = 1.
Proof. eexists. split; [vm_compute; reflexivity|]. by vm_compute. Qed.


(** ** The gate *)

(** C3 fails on the tool.  Two buys of 10 XYZ at 60 on an account of 1000
    are interleaved: the first reads the ledger and releases the gate; the
    second then takes the gate and reads the same ledger while the first is
    still under way; both pass the cash check against 1000 and both place
    their order, 1200 in all.  Neither is recorded (the read of the
    commission raises in each), so neither sees the other. *)
Theorem interleaved_buys_both_place_orders :
  exists st',
    run_schedule read_read_order_order
      [(buyer, buy "XYZ" 10); (buyer, buy "XYZ" 10)] empty_store
    = Some ([(buyer,
              Ret (ErrOrder (Some (VStr no_commission)) "XYZ"
                     (Some "2025-01-02")
                     (order_error (AttributeError no_commission))));
             (buyer,
              Ret (ErrOrder (Some (VStr no_commission)) "XYZ"
                     (Some "2025-01-02")
                     (order_error (AttributeError no_commission))))],
            st')
    /\ events st'
       = [ EGetConfig "SIGNATURE"; EGetConfig "TODAY_DATE"; EConnect;
           EAcquire "agent"; ERead "agent"; ERelease "agent";
           EGetConfig "SIGNATURE"; EGetConfig "TODAY_DATE"; EConnect;
           EAcquire "agent"; ERead "agent"; ERelease "agent";
           EPrice "XYZ"; EQualify "XYZ"; EPlaceOrder "XYZ" "BUY" 10; ESleep;
           EDisconnect;
           EPrice "XYZ"; EQualify "XYZ"; EPlaceOrder "XYZ" "BUY" 10; ESleep;
           EDisconnect ]
    /\ ledgers st' = ledgers empty_store
    /\ cash_of (current_position buyer empty_store "agent") = 1000%Q.
Proof. eexists. split; [vm_compute; reflexivity|]. by vm_compute. Qed.

(** ** Sequence numbers *)



(** ** What a trade changes *)



(** ** The gateway session *)

(** X23: once buy or sell has opened a session it closes it exactly once,
    whatever happens next. *)
Lemma trade_disconnects_once (w : world) (st : store) (req : request)
    (s : string) :
  signature_of w = Some s ->
  s ∉ locks st ->
  w_connect w = None ->
  (match req with Buy _ amount | Sell _ amount => 0 < amount end) ->
  exists r st',
    run w (request_prog req) st = (Returned r, st')
    /\ count_events is_disconnect (new_events st st') = 1%nat.
Proof.
  unfold signature_of. intros Hs Hl Hc Ha.
  destruct req as [symbol amount|symbol amount];
    cbn [request_prog]; [unfold buy|unfold sell];
    sym_step; rewrite Hs; sym_step;
    (destruct (Z.leb_spec amount 0) as [?|_]; [lia|]);
    sym_exec.
  all: eexists _, _; (split; [reflexivity|]); by new_log.
Qed.

Lemma trade_disconnects_once_witness :
  exists r st',
    run (with_price (fun _ _ => inl (RuntimeError "price file unreadable"))
           calm)
        (buy "XYZ" 10) empty_store = (Returned r, st')
    /\ count_events is_disconnect (new_events empty_store st') = 1%nat.
Proof.
  apply (trade_disconnects_once
           (with_price (fun _ _ => inl (RuntimeError "price file unreadable"))
              calm)
           empty_store (Buy "XYZ" 10) "agent");
    [reflexivity | apply not_elem_of_empty | reflexivity | reflexivity].
Defined.

(** The loop over the account values makes no call. *)
Lemma run_collect_account (w : world) (values : list account_value)
    (acc : gmap string Q) (st : store) :
  (exists m, run w (collect_account values acc) st = (Returned m, st))
  \/ (exists e, run w (collect_account values acc) st = (Raised e, st)).
Proof.
  revert acc. induction values as [|v values IH]; intros acc; cbn.
  - left. by eexists.
  - repeat case_match; try apply IH. right. by eexists.
Qed.

(** The loop over the positions makes no call: it returns what it was
    given when no contract has a symbol, and raises on the first that has
    one, at the read of its market price. *)
Lemma run_summarize_positions (w : world) (positions : list ib_position)
    (acc : list position_entry) (st : store) :
  (Forall (fun pos => has_symbol pos = false) positions
   /\ run w (summarize_positions positions acc) st = (Returned acc, st))
  \/ (Exists (fun pos => has_symbol pos = true) positions
      /\ exists e, run w (summarize_positions positions acc) st
                   = (Raised e, st)).
Proof.
  induction positions as [|pos positions IH]; cbn [summarize_positions].
  { left. by split. }
  destruct (pos_symbol pos) as [symbol|] eqn:Hs.
  - right. split; [|by eexists].
    apply Exists_cons_hd. unfold has_symbol. by rewrite Hs.
  - destruct IH as [[Hall Hrun]|[Hex Hrun]].
    + left. split; [|done]. constructor; [|done].
      unfold has_symbol. by rewrite Hs.
    + right. split; [by apply Exists_cons_tl|done].
Qed.

(** X21: the account summary closes the session it opened on the success path
    only: when anything raises after the connect, the handler returns the
    error and the session stays open. *)
Lemma account_summary_disconnects_on_success_only (w : world) (st : store) :
  w_connect w = None ->
  exists r st',
    run w get_ib_account_summary st = (Returned r, st')
    /\ count_events is_disconnect (new_events st st')
       = match r with SummaryOk _ _ _ => 1%nat | SummaryErr _ => 0%nat end.
Proof.
  intros Hc. unfold get_ib_account_summary. sym_step. rewrite Hc. sym_step.
  destruct (w_account_values w) as [e|values]; sym_step.
  { eexists _, _. split; [reflexivity|]. by new_log. }
  unfold mbind, prog_bind. rewrite run_catch, run_bind.
  destruct (run_collect_account w values ∅
              (log EAccountValues (log EConnect st))) as [[m ->]|[e ->]].
  2: { sym_step. eexists _, _. split; [reflexivity|]. by new_log. }
  sym_step. destruct (w_positions w) as [e|remote]; sym_step.
  { eexists _, _. split; [reflexivity|]. by new_log. }
  rewrite run_bind.
  destruct (run_summarize_positions w remote []
              (log EPositions (log EAccountValues (log EConnect st))))
    as [[_ ->]|[_ [e ->]]];
    sym_step; eexists _, _; (split; [reflexivity|]); by new_log.
Qed.

Lemma account_summary_disconnects_on_success_only_witness :
  exists r st',
    run (with_account_values (inr account_values_ok) calm)
        get_ib_account_summary empty_store = (Returned r, st')
    /\ count_events is_disconnect (new_events empty_store st')
       = match r with SummaryOk _ _ _ => 1%nat | SummaryErr _ => 0%nat end.
Proof.
  exact (account_summary_disconnects_on_success_only
           (with_account_values (inr account_values_ok) calm) empty_store
           eq_refl).
Defined.

(** C4 fails on the account summary: the session opens, the first query on
    it raises, and the summary returns the error without a disconnect. *)
Theorem account_summary_error_leaves_session_open :
  exists st',
    run dropped_session get_ib_account_summary empty_store
      = (Returned (SummaryErr "Not connected"), st')
    /\ select is_gateway (new_events empty_store st')
       = [EConnect; EAccountValues]
    /\ count_events is_disconnect (new_events empty_store st') = 0%nat.
Proof. eexists. split; [vm_compute; reflexivity|]. by vm_compute. Qed.


(** * Further properties of the tool *)

(** ** Early returns *)

(** X1: when the connection to the gateway fails, buy and sell return the
    connection error, with the text [_connect_ib] gives it, after three
    calls only: the two configuration reads and the connect attempt.  The
    ledger is not read, the gate is not taken, nothing is disconnected. *)
Theorem connect_failure_returns_early (w : world) (st : store)
    (req : request) (s : string) (e : exn) :
  signature_of w = Some s ->
  w_connect w = Some e ->
  0 < request_amount req ->
  run w (request_prog req) st
  = (Returned
       (ErrConnect ("❌ Failed to connect to IB: " +:+ str_exn e)
          (request_symbol req) (today_of w)),
     log EConnect
       (log (EGetConfig "TODAY_DATE") (log (EGetConfig "SIGNATURE") st))).
Proof.
  unfold signature_of, today_of. intros Hs Hc Ha.
  destruct req as [symbol amount|symbol amount];
    cbn [request_prog request_symbol request_amount] in *;
    [unfold buy|unfold sell];
    sym_step; rewrite Hs; sym_step;
    (destruct (Z.leb_spec amount 0) as [?|_]; [lia|]);
    sym_step; rewrite Hc; reflexivity.
Qed.

Lemma connect_failure_returns_early_witness :
  run (with_connect (Some (OSError "Connection refused")) calm)
      (buy "XYZ" 10) empty_store
  = (Returned
       (ErrConnect "❌ Failed to connect to IB: Connection refused" "XYZ"
          (Some "2025-01-02")),
     log EConnect
       (log (EGetConfig "TODAY_DATE")
          (log (EGetConfig "SIGNATURE") empty_store))).
Proof.
  apply (connect_failure_returns_early
           (with_connect (Some (OSError "Connection refused")) calm)
           empty_store (Buy "XYZ" 10) "agent" (OSError "Connection refused"));
    [reflexivity | reflexivity | reflexivity].
Defined.

(** X2: A sell with [amount <= 0] returns the "Amount must be positive" error
    after the two configuration reads; no other call is made. *)
Theorem sell_nonpositive_amount (w : world) (st : store) (symbol s : string)
    (amount : Z) :
  signature_of w = Some s ->
  amount <= 0 ->
  run w (sell symbol amount) st
  = (Returned (ErrAmount symbol (today_of w)),
     log (EGetConfig "TODAY_DATE") (log (EGetConfig "SIGNATURE") st)).
Proof.
  unfold signature_of, today_of. intros Hs Ha.
  unfold sell. sym_step. rewrite Hs. sym_step.
  by destruct (Z.leb_spec amount 0) as [_|?]; [|lia].
Qed.

Lemma sell_nonpositive_amount_witness :
  run calm_sell (sell "XYZ" (-4)) after_first_buy
  = (Returned (ErrAmount "XYZ" (Some "2025-01-02")),
     log (EGetConfig "TODAY_DATE")
       (log (EGetConfig "SIGNATURE") after_first_buy)).
Proof.
  apply (sell_nonpositive_amount calm_sell after_first_buy "XYZ" "agent" (-4));
    [reflexivity | lia].
Defined.

(** ** All or nothing *)

(** X3: whenever buy or sell returns an error dictionary other than the
    catch-all "Unexpected error", nothing was written: the ledgers and the
    process flags are as before and no append was attempted. *)
Theorem rejection_leaves_ledger (w : world) (st st' : store) (req : request)
    (r : result) :
  run w (request_prog req) st = (Returned r, st') ->
  is_rejection r = true ->
  ledgers st' = ledgers st
  /\ flags st' = flags st
  /\ count_events is_append (new_events st st') = 0%nat.
Proof.
  destruct req as [symbol amount|symbol amount];
    cbn [request_prog]; [unfold buy|unfold sell];
    sym_exec; intros [= <- <-] Hr; try discriminate; by new_log.
Qed.

Lemma rejection_leaves_ledger_witness :
  exists r st',
    run calm_sell (sell "XYZ" 100) after_first_buy = (Returned r, st')
    /\ is_rejection r = true
    /\ ledgers st' = ledgers after_first_buy
    /\ flags st' = flags after_first_buy.
Proof.
  eassert (Hrun :
    run calm_sell (sell "XYZ" 100) after_first_buy = (Returned _, _))
    by (vm_compute; reflexivity).
  eexists _, _. split; [exact Hrun|]. split; [reflexivity|].
  destruct (rejection_leaves_ledger calm_sell _ _ (Sell "XYZ" 100) _
              Hrun eq_refl) as (Hl & Hf & _).
  by split.
Defined.

(** X4: whenever buy or sell returns one of its validation errors (amount,
    connection, price, cash, local or remote shares), the gateway was never
    asked to qualify a contract or to place an order. *)
Theorem validation_error_places_no_order (w : world) (st st' : store)
    (req : request) (r : result) :
  run w (request_prog req) st = (Returned r, st') ->
  is_validation_error r = true ->
  count_events is_order_call (new_events st st') = 0%nat.
Proof.
  destruct req as [symbol amount|symbol amount];
    cbn [request_prog]; [unfold buy|unfold sell];
    sym_exec; intros [= <- <-] Hr; try discriminate; by new_log.
Qed.

Lemma validation_error_places_no_order_witness :
  exists r st',
    run calm_sell (sell "XYZ" 100) after_first_buy = (Returned r, st')
    /\ is_validation_error r = true
    /\ count_events is_order_call (new_events after_first_buy st') = 0%nat.
Proof.
  eassert (Hrun :
    run calm_sell (sell "XYZ" 100) after_first_buy = (Returned _, _))
    by (vm_compute; reflexivity).
  eexists _, _. split; [exact Hrun|]. split; [reflexivity|].
  exact (validation_error_places_no_order calm_sell _ _ (Sell "XYZ" 100) _
           Hrun eq_refl).
Defined.

(** ** The gate *)

(** X5: started with its identity's gate free, a buy or sell never waits on the
    gate and leaves it free, on every path: return, error return, or raise. *)
Theorem gate_always_released (w : world) (st st' : store) (req : request)
    (s : string) (o : outcome result) :
  signature_of w = Some s ->
  s ∉ locks st ->
  run w (request_prog req) st = (o, st') ->
  o <> Blocked /\ locks st' = locks st.
Proof.
  unfold signature_of. intros Hs Hl.
  destruct req as [symbol amount|symbol amount];
    cbn [request_prog]; [unfold buy|unfold sell];
    sym_exec; intros [= <- <-]; (split; [done|]); cbn [locks log];
    try done; set_solver.
Qed.

Lemma gate_always_released_witness :
  exists o st',
    run (scenario agent_config 10000 50 [] (filled 50)
           (Some (OSError "No space left on device")))
        (buy "XYZ" 10) empty_store = (o, st')
    /\ o <> Blocked /\ locks st' = locks empty_store.
Proof.
  eassert (Hrun :
    run (scenario agent_config 10000 50 [] (filled 50)
           (Some (OSError "No space left on device")))
        (buy "XYZ" 10) empty_store = (_, _))
    by (vm_compute; reflexivity).
  eexists _, _. split; [exact Hrun|].
  exact (gate_always_released
           (scenario agent_config 10000 50 [] (filled 50)
              (Some (OSError "No space left on device")))
           _ _ (Buy "XYZ" 10) "agent" _ eq_refl
           (not_elem_of_empty (C := gset string) "agent") Hrun).
Defined.

(** ** The checks before an order *)

(** X12: the price lookup of a buy or sell, once made, decides the result when
    it fails: a KeyError gives the "not found in price data" error, any
    other exception the catch-all error with the exception's text.  Either
    way the session is closed straight after the connect, no order is sent
    and the ledger is not written. *)
Theorem price_lookup_failure (w : world) (st st' : store) (req : request)
    (e : exn) (o : outcome result) :
  reference_price w req = inl e ->
  run w (request_prog req) st = (o, st') ->
  count_events is_price (new_events st st') <> 0%nat ->
  o = Returned
        (match e with
         | KeyError _ => ErrPrice (request_symbol req) (today_of w)
         | _ => ErrUnexpected (str_exn e) (request_symbol req) (today_of w)
         end)
  /\ select is_gateway (new_events st st') = [EConnect; EDisconnect]
  /\ ledgers st' = ledgers st.
Proof.
  unfold reference_price, today_of. intros Hp.
  destruct req as [symbol amount|symbol amount];
    cbn [request_prog request_symbol] in *; [unfold buy|unfold sell];
    sym_exec; intros [= <- <-] Hlog; log_in Hlog; try done;
    simplify_eq; by new_log.
Qed.

Lemma price_lookup_failure_witness :
  exists st',
    run (with_price (fun _ _ => inl (KeyError "XYZ_price")) calm)
        (buy "XYZ" 10) empty_store
      = (Returned (ErrPrice "XYZ" (Some "2025-01-02")), st')
    /\ select is_gateway (new_events empty_store st')
       = [EConnect; EDisconnect].
Proof.
  eassert (Hrun :
    run (with_price (fun _ _ => inl (KeyError "XYZ_price")) calm)
        (buy "XYZ" 10) empty_store = (Returned (ErrPrice _ _), _))
    by (vm_compute; reflexivity).
  destruct (price_lookup_failure
              (with_price (fun _ _ => inl (KeyError "XYZ_price")) calm)
              _ _ (Buy "XYZ" 10) (KeyError "XYZ_price") _ eq_refl Hrun)
    as (_ & Hg & _).
  - vm_compute. discriminate.
  - eexists. split; [exact Hrun | exact Hg].
Defined.

(** X13: [_get_ib_position] answers with the first position listed under the
    symbol, and with zero when none is: positions under other symbols, or
    under a contract without a symbol, are passed over. *)
Theorem find_position_first_match (before : list ib_position)
    (symbol : string) :
  Forall (fun pos => pos_symbol pos <> Some symbol) before ->
  find_position before symbol = 0
  /\ forall pos after,
       pos_symbol pos = Some symbol ->
       find_position (before ++ pos :: after) symbol = pos_position pos.
Proof.
  induction 1 as [|other before Hother _ [IH0 IH]].
  - split; [done|]. intros pos after Hpos. cbn. by rewrite decide_True.
  - split.
    + cbn [find_position]. by rewrite decide_False.
    + intros pos after Hpos. cbn [app find_position].
      rewrite decide_False by done. by apply IH.
Qed.

Lemma find_position_first_match_witness :
  find_position (take 2 remote_mixed) "XYZ" = 0
  /\ find_position remote_mixed "XYZ" = 10.
Proof.
  assert (Hnone : Forall (fun pos => pos_symbol pos <> Some "XYZ")
                    (take 2 remote_mixed))
    by (repeat constructor; discriminate).
  destruct (find_position_first_match (take 2 remote_mixed) "XYZ" Hnone)
    as [H0 Hfirst].
  split; [exact H0|].
  exact (Hfirst
           {| pos_symbol := Some "XYZ"; pos_position := 10;
              pos_avgCost := 0%Q |} (remote_xyz 25) eq_refl).
Defined.

(** X14: when a sell is refused for the broker's position, that position is
    what [_get_ib_position] found, it is below the amount asked, the local
    record did cover the amount, and the gateway was asked for its
    positions between the connect and the disconnect and for nothing
    else. *)
Theorem remote_shortfall_refuses_sell (w : world) (st st' : store)
    (symbol s sym : string) (amount ib want : Z) (date : option string) :
  signature_of w = Some s ->
  run w (sell symbol amount) st
    = (Returned (ErrIBShares ib want sym date), st') ->
  exists remote held,
    w_positions w = inr remote
    /\ ib = find_position remote symbol
    /\ ib < amount
    /\ want = amount
    /\ current_position w st s !! symbol = Some held
    /\ Qlt_bool held (inject_Z amount) = false
    /\ select is_gateway (new_events st st')
       = [EConnect; EPositions; EDisconnect].
Proof.
  unfold signature_of, current_position. intros Hs. unfold sell.
  sym_exec; intros [= <- <- <- <- <-]; simplify_eq.
  match goal with H : readLatest _ _ = _ |- _ => rewrite H end.
  eexists _, _. split; [reflexivity|]. split; [reflexivity|].
  split; [by apply Z.ltb_lt|]. split; [done|]. split; [eassumption|].
  split; [assumption|]. by new_log.
Qed.

Lemma remote_shortfall_refuses_sell_witness :
  exists ib st' remote,
    run (scenario agent_config 10000 55 (remote_xyz 3) (filled 55) None)
        (sell "XYZ" 4) after_first_buy
      = (Returned (ErrIBShares ib 4 "XYZ" (Some "2025-01-02")), st')
    /\ w_positions
         (scenario agent_config 10000 55 (remote_xyz 3) (filled 55) None)
       = inr remote
    /\ ib = find_position remote "XYZ"
    /\ ib < 4.
Proof.
  eassert (Hrun :
    run (scenario agent_config 10000 55 (remote_xyz 3) (filled 55) None)
        (sell "XYZ" 4) after_first_buy
      = (Returned (ErrIBShares _ _ _ _), _)) by (vm_compute; reflexivity).
  destruct (remote_shortfall_refuses_sell
              (scenario agent_config 10000 55 (remote_xyz 3) (filled 55)
                 None)
              _ _ "XYZ" "agent" _ 4 _ _ _ eq_refl Hrun)
    as (remote & held & Hr & Hib & Hlt & _).
  eexists _, _, remote. split; [exact Hrun|]. by split.
Defined.

(** ** Exceptions *)

(** X27: the only exception buy or sell lets out is the ValueError for a
    missing SIGNATURE: every other exception, from the gateway, the price
    lookup, the ledger file or the flag, is turned into a dictionary. *)
Theorem only_missing_signature_raises (w : world) (st st' : store)
    (req : request) (e : exn) :
  run w (request_prog req) st = (Raised e, st') ->
  signature_of w = None
  /\ e = ValueError "SIGNATURE environment variable is not set".
Proof.
  unfold signature_of.
  destruct req as [symbol amount|symbol amount];
    cbn [request_prog]; [unfold buy|unfold sell];
    sym_exec; intros [= <- <-]; done.
Qed.

Lemma only_missing_signature_raises_witness :
  exists e st',
    run (scenario ∅ 10000 55 (remote_xyz 10) (filled 55) None)
        (sell "XYZ" 4) after_first_buy = (Raised e, st')
    /\ e = ValueError "SIGNATURE environment variable is not set".
Proof.
  eassert (Hrun :
    run (scenario ∅ 10000 55 (remote_xyz 10) (filled 55) None)
        (sell "XYZ" 4) after_first_buy = (Raised _, _))
    by (vm_compute; reflexivity).
  eexists _, _. split; [exact Hrun|].
  exact (proj2 (only_missing_signature_raises
                  (scenario ∅ 10000 55 (remote_xyz 10) (filled 55) None)
                  _ _ (Sell "XYZ" 4) _ Hrun)).
Defined.

(** ** The account summary *)

(** X19: [get_ib_account_summary] never raises: a failed connection, like any
    other exception, comes back as an error dictionary.  It leaves the
    ledgers, the gates and the flags alone; and when the connection fails
    the error is the text [_connect_ib] gives it and the connect attempt is
    the only call made. *)
Theorem account_summary_never_raises (w : world) (st : store) :
  exists r st',
    run w get_ib_account_summary st = (Returned r, st')
    /\ ledgers st' = ledgers st
    /\ locks st' = locks st
    /\ flags st' = flags st
    /\ forall e,
         w_connect w = Some e ->
         r = SummaryErr ("❌ Failed to connect to IB: " +:+ str_exn e)
         /\ new_events st st' = [EConnect].
Proof.
  unfold get_ib_account_summary. sym_step.
  destruct (w_connect w) as [e|] eqn:Hc; sym_step.
  { eexists _, _. split; [reflexivity|]. do 3 (split; [reflexivity|]).
    intros e' [= <-]. split; [reflexivity|]. by new_log. }
  destruct (w_account_values w) as [e|values]; sym_step.
  { eexists _, _. split; [reflexivity|]. by do 3 (split; [reflexivity|]). }
  unfold mbind, prog_bind. rewrite run_catch, run_bind.
  destruct (run_collect_account w values ∅
              (log EAccountValues (log EConnect st))) as [[m ->]|[e ->]].
  2: { sym_step. eexists _, _. split; [reflexivity|].
       by do 3 (split; [reflexivity|]). }
  sym_step. destruct (w_positions w) as [e|remote]; sym_step.
  { eexists _, _. split; [reflexivity|]. by do 3 (split; [reflexivity|]). }
  rewrite run_bind.
  destruct (run_summarize_positions w remote []
              (log EPositions (log EAccountValues (log EConnect st))))
    as [[_ ->]|[_ [e ->]]];
    sym_step; eexists _, _; (split; [reflexivity|]);
    by do 3 (split; [reflexivity|]).
Qed.

(** The loop over the account values, run from [acc]: it raises when some
    kept tag has an unreadable value; otherwise it returns a dictionary
    that extends [acc] with kept tags only, each read from an item of the
    list, and that has every kept tag of the list. *)
Lemma collect_account_cases (w : world) (values : list account_value)
    (acc : gmap string Q) (st : store) :
  (Exists unreadable values
   /\ exists e, run w (collect_account values acc) st = (Raised e, st))
  \/ (Forall (fun value => ~ unreadable value) values
      /\ exists m,
           run w (collect_account values acc) st = (Returned m, st)
           /\ (forall k v, m !! k = Some v ->
                 acc !! k = Some v
                 \/ (k ∈ summary_tags
                     /\ exists item, item ∈ values /\ av_tag item = k
                                     /\ av_value item = Some v))
           /\ (forall k, is_Some (acc !! k) -> is_Some (m !! k))
           /\ (forall item, item ∈ values -> av_tag item ∈ summary_tags ->
                 is_Some (m !! av_tag item))).
Proof.
  revert acc. induction values as [|value values IH]; intros acc.
  { right. split; [constructor|]. exists acc. split; [done|].
    split; [by left|]. split; [done|]. intros item Hin. by inversion Hin. }
  cbn [collect_account]. fold summary_tags.
  destruct (bool_decide_reflect (av_tag value ∈ summary_tags)) as [Hk|Hk].
  - destruct (av_value value) as [v|] eqn:Hv.
    + destruct (IH (<[av_tag value := v]> acc))
        as [[Hex He]|(Hall & m & Hrun & Hfrom & Hkeep & Hhas)].
      * left. split; [by apply Exists_cons_tl|done].
      * right. split.
        { constructor; [|done]. intros [_ Hnone]. congruence. }
        exists m. split; [done|]. split; [|split].
        -- intros k x Hm. destruct (Hfrom k x Hm) as [Hacc|Hitem].
           ++ destruct (decide (av_tag value = k)) as [<-|Hne].
              ** rewrite lookup_insert_eq in Hacc. injection Hacc as <-.
                 right. split; [done|]. exists value.
                 split; [by left|done].
              ** rewrite lookup_insert_ne in Hacc by done. by left.
           ++ destruct Hitem as (Htag & item & Hin & Ht & Hval).
              right. split; [done|]. exists item.
              split; [by right|done].
        -- intros k Hacc. apply Hkeep.
           destruct (decide (av_tag value = k)) as [<-|Hne].
           ++ rewrite lookup_insert_eq. by eexists.
           ++ by rewrite lookup_insert_ne.
        -- intros item Hin Htag. apply elem_of_cons in Hin as [->|Hin].
           ++ apply Hkeep. rewrite lookup_insert_eq. by eexists.
           ++ by apply Hhas.
    + left. split; [by apply Exists_cons_hd|]. by eexists.
  - destruct (IH acc) as [[Hex He]|(Hall & m & Hrun & Hfrom & Hkeep & Hhas)].
    + left. split; [by apply Exists_cons_tl|done].
    + right. split.
      { constructor; [|done]. by intros [Htag _]. }
      exists m. split; [done|]. split; [|split; [done|]].
      * intros k x Hm. destruct (Hfrom k x Hm) as [Hacc|Hitem]; [by left|].
        destruct Hitem as (Htag & item & Hin & Ht & Hval).
        right. split; [done|]. exists item. split; [by right|done].
      * intros item Hin Htag. apply elem_of_cons in Hin as [->|Hin].
        -- done.
        -- by apply Hhas.
Qed.

(** X20: with the session open and both queries answered,
    [get_ib_account_summary] returns an error exactly when a kept tag
    carries a value that does not read as a number, or when the gateway
    lists a position whose contract has a symbol: the loop over the
    positions reads a market price that a position does not have.  A tag
    that is not kept is skipped unread.  Otherwise the summary has the kept
    tags of the list and no other key, each value read from an item of the
    list, no position, and the clock's timestamp. *)
Theorem account_summary_contents (w : world) (st : store)
    (values : list account_value) (remote : list ib_position) :
  w_connect w = None ->
  w_account_values w = inr values ->
  w_positions w = inr remote ->
  exists r st',
    run w get_ib_account_summary st = (Returned r, st')
    /\ (((Exists unreadable values
          \/ Exists (fun pos => has_symbol pos = true) remote)
         /\ exists msg, r = SummaryErr msg)
        \/ (Forall (fun value => ~ unreadable value) values
            /\ Forall (fun pos => has_symbol pos = false) remote
            /\ exists m,
                 r = SummaryOk m [] (w_now w)
                 /\ (forall k v, m !! k = Some v ->
                       k ∈ summary_tags
                       /\ exists item, item ∈ values /\ av_tag item = k
                                       /\ av_value item = Some v)
                 /\ (forall item, item ∈ values ->
                       av_tag item ∈ summary_tags ->
                       is_Some (m !! av_tag item)))).
Proof.
  intros Hc Hv Hp. unfold get_ib_account_summary.
  sym_step. rewrite Hc. sym_step. rewrite Hv. sym_step.
  unfold mbind, prog_bind. rewrite run_catch, run_bind.
  destruct (collect_account_cases w values ∅
              (log EAccountValues (log EConnect st)))
    as [[Hex [e ->]]|(Hall & m & -> & Hfrom & _ & Hhas)].
  { sym_step. eexists _, _. split; [reflexivity|]. left. by eauto. }
  sym_step. rewrite Hp. sym_step. rewrite run_bind.
  destruct (run_summarize_positions w remote []
              (log EPositions (log EAccountValues (log EConnect st))))
    as [[Hnone ->]|[Hsome [e ->]]]; sym_step;
    eexists _, _; (split; [reflexivity|]).
  - right. split; [done|]. split; [done|]. exists m.
    split; [reflexivity|]. split; [|done].
    intros k v Hm. destruct (Hfrom k v Hm) as [Hempty|Hitem]; [|done].
    by rewrite lookup_empty in Hempty.
  - left. by eauto.
Qed.

Lemma account_summary_contents_witness :
  exists st' m,
    run (with_account_values (inr account_values_ok)
           (scenario agent_config 10000 50 remote_unnamed (filled 50) None))
        get_ib_account_summary empty_store
      = (Returned (SummaryOk m [] "2025-01-02T09:30:00"), st')
    /\ m !! "Currency" = None.
Proof.
  destruct (account_summary_contents
              (with_account_values (inr account_values_ok)
                 (scenario agent_config 10000 50 remote_unnamed (filled 50)
                    None))
              empty_store account_values_ok remote_unnamed
              eq_refl eq_refl eq_refl)
    as (r & st' & Hrun & Hcases).
  vm_compute in Hrun. injection Hrun as <- <-.
  eexists _, _. split; [vm_compute; reflexivity|]. reflexivity.
Defined.

(** ** Orders *)

(** X15: [_execute_ib_order] never raises, never touches the ledgers, the gates
    or the flags, and never reports success: its dictionary has no truthy
    success and no fill price.  When qualifying the contract raises, no
    order is placed; and when the order is placed and its status after the
    wait is Filled, PreSubmitted or Submitted, the dictionary is the error
    of the read of the commission, which an order status does not have. *)
Theorem execute_ib_order_never_raises (w : world) (st : store)
    (symbol action : string) (quantity : Z) :
  exists d st',
    run w (_execute_ib_order symbol quantity action) st = (Returned d, st')
    /\ ledgers st' = ledgers st
    /\ locks st' = locks st
    /\ flags st' = flags st
    /\ truthy (d !! "success") = false
    /\ d !! "fill_price" = None
    /\ (w_qualify w <> None ->
          count_events is_order (new_events st st') = 0%nat)
    /\ (forall trade,
          w_qualify w = None ->
          w_place w = inr trade ->
          accepted_status (status trade) = true ->
          d = order_error (AttributeError no_commission)
          /\ select is_order_call (new_events st st')
             = [EQualify symbol; EPlaceOrder symbol action quantity; ESleep]).
Proof.
  sym_exec; eexists _, _; (split; [reflexivity|]);
    do 3 (split; [reflexivity|]);
    rewrite ?not_filled_success, ?error_success; cbn [truthy];
    (split; [reflexivity|]); (split; [reflexivity|]);
    (split; [intros; try done; by new_log|]);
    intros trade ? ? ?; simplify_eq; try congruence;
    (split; [reflexivity|by new_log]).
Qed.

(** X16: when buy or sell reports a failed order, the execution details are
    what [_execute_ib_order] returned, with no success in them, and the
    error text is theirs.  There are four causes: qualifying raised;
    placing raised; the order was placed with an accepted status and the
    read of the commission raised; or the order was placed and its status
    after the wait was not an accepted one.  The session is closed once. *)
Theorem failed_order_is_reported (w : world) (st st' : store)
    (req : request) (err : option pyval) (sym : string)
    (date : option string) (d : gmap string pyval) :
  run w (request_prog req) st = (Returned (ErrOrder err sym date d), st') ->
  err = d !! "error"
  /\ truthy (d !! "success") = false
  /\ ((exists e,
         (w_qualify w = Some e \/ w_qualify w = None /\ w_place w = inl e)
         /\ d = order_error e)
      \/ (exists trade,
            w_qualify w = None /\ w_place w = inr trade
            /\ accepted_status (status trade) = true
            /\ d = order_error (AttributeError no_commission))
      \/ (exists trade,
            w_qualify w = None /\ w_place w = inr trade
            /\ accepted_status (status trade) = false
            /\ d = order_not_filled trade))
  /\ count_events is_disconnect (new_events st st') = 1%nat.
Proof.
  destruct req as [symbol amount|symbol amount];
    cbn [request_prog]; [unfold buy|unfold sell];
    sym_exec; intros [= <- <- <- <-]; simplify_eq;
    (split; [reflexivity|]); (split; [reflexivity|]);
    (split; [|by new_log]); eauto 10.
Qed.

Lemma failed_order_is_reported_witness :
  exists err d st',
    run (with_qualify (Some (RuntimeError "No security definition")) calm)
        (buy "XYZ" 10) empty_store
      = (Returned (ErrOrder err "XYZ" (Some "2025-01-02") d), st')
    /\ err = d !! "error"
    /\ truthy (d !! "success") = false.
Proof.
  eassert (Hrun :
    run (with_qualify (Some (RuntimeError "No security definition")) calm)
        (buy "XYZ" 10) empty_store
      = (Returned (ErrOrder _ _ _ _), _)) by (vm_compute; reflexivity).
  destruct (failed_order_is_reported
              (with_qualify (Some (RuntimeError "No security definition"))
                 calm)
              _ _ (Buy "XYZ" 10) _ _ _ _ Hrun) as (He & Hs & _).
  eexists _, _, _. split; [exact Hrun|]. by split.
Defined.

(** X7: no buy or sell is ever recorded: whatever the world answers, the
    result is never a position, no append is attempted, and the ledgers and
    the flags are left as they were. *)
Theorem no_request_is_recorded (w : world) (st st' : store) (req : request)
    (o : outcome result) :
  run w (request_prog req) st = (o, st') ->
  ledgers st' = ledgers st
  /\ flags st' = flags st
  /\ count_events is_append (new_events st st') = 0%nat
  /\ forall p d a, o <> Returned (Traded p d a).
Proof.
  destruct req as [symbol amount|symbol amount];
    cbn [request_prog]; [unfold buy|unfold sell];
    sym_exec; intros [= <- <-];
    (split; [reflexivity|]); (split; [reflexivity|]);
    (split; [by new_log|done]).
Qed.

Lemma no_request_is_recorded_witness :
  exists o st',
    run calm (buy "XYZ" 10) empty_store = (o, st')
    /\ ledgers st' = ledgers empty_store
    /\ count_events is_order (new_events empty_store st') = 1%nat.
Proof.
  eassert (Hrun : run calm (buy "XYZ" 10) empty_store = (_, _))
    by (vm_compute; reflexivity).
  eexists _, _. split; [exact Hrun|]. split; [|by vm_compute].
  exact (proj1 (no_request_is_recorded calm _ _ (Buy "XYZ" 10) _ Hrun)).
Defined.

(** X22: an order the gateway accepts is never settled: once the order is
    placed and its status after the wait is Filled, PreSubmitted or
    Submitted, buy and sell return "IB order failed" with the text of the
    exception raised by the read of the commission; the ledger is left as
    it was and the session is closed once. *)
Theorem accepted_order_is_reported_failed (w : world) (st st' : store)
    (req : request) (trade : ib_trade) (o : outcome result) :
  w_place w = inr trade ->
  accepted_status (status trade) = true ->
  run w (request_prog req) st = (o, st') ->
  count_events is_order (new_events st st') <> 0%nat ->
  o = Returned
        (ErrOrder (Some (VStr no_commission)) (request_symbol req)
           (today_of w) (order_error (AttributeError no_commission)))
  /\ ledgers st' = ledgers st
  /\ count_events is_disconnect (new_events st st') = 1%nat.
Proof.
  unfold today_of. intros Hp Hacc.
  destruct req as [symbol amount|symbol amount];
    cbn [request_prog request_symbol]; [unfold buy|unfold sell];
    sym_exec; intros [= <- <-] Hlog; log_in Hlog; try done;
    simplify_eq; try congruence;
    (split; [reflexivity|]); (split; [reflexivity|]); by new_log.
Qed.

Lemma accepted_order_is_reported_failed_witness :
  exists st',
    run calm_sell (sell "XYZ" 4) after_first_buy
      = (Returned
           (ErrOrder (Some (VStr no_commission)) "XYZ" (Some "2025-01-02")
              (order_error (AttributeError no_commission))),
         st')
    /\ ledgers st' = ledgers after_first_buy.
Proof.
  eassert (Hrun : run calm_sell (sell "XYZ" 4) after_first_buy = (_, _))
    by (vm_compute; reflexivity).
  destruct (accepted_order_is_reported_failed calm_sell _ _ (Sell "XYZ" 4)
              _ _ eq_refl eq_refl Hrun) as (Ho & Hl & _).
  - vm_compute. discriminate.
  - eexists. split; [exact Hrun|exact Hl].
Defined.

(** ** The order of calls *)

(** X24: the calls of a buy whose order is placed, in order: the gate is taken
    and released around the read of the ledger alone; the price is looked
    up and the order qualified, placed and waited for with the gate free;
    then the session is closed.  No append and no flag write follows. *)
Theorem buy_calls (w : world) (st st' : store) (symbol s : string)
    (amount : Z) (trade : ib_trade) (o : outcome result) :
  signature_of w = Some s ->
  w_place w = inr trade ->
  run w (buy symbol amount) st = (o, st') ->
  count_events is_order (new_events st st') <> 0%nat ->
  new_events st st'
  = [ EGetConfig "SIGNATURE"; EGetConfig "TODAY_DATE"; EConnect;
      EAcquire s; ERead s; ERelease s;
      EPrice symbol; EQualify symbol; EPlaceOrder symbol "BUY" amount; ESleep;
      EDisconnect ].
Proof.
  unfold signature_of. intros Hs Hp. unfold buy.
  sym_exec; intros [= <- <-] Hlog; log_in Hlog; try done;
    simplify_eq; by new_log.
Qed.

Lemma buy_calls_witness :
  exists o st',
    run calm (buy "XYZ" 10) empty_store = (o, st')
    /\ new_events empty_store st'
       = [ EGetConfig "SIGNATURE"; EGetConfig "TODAY_DATE"; EConnect;
           EAcquire "agent"; ERead "agent"; ERelease "agent";
           EPrice "XYZ"; EQualify "XYZ"; EPlaceOrder "XYZ" "BUY" 10; ESleep;
           EDisconnect ].
Proof.
  eassert (Hrun : run calm (buy "XYZ" 10) empty_store = (_, _))
    by (vm_compute; reflexivity).
  eexists _, _. split; [exact Hrun|].
  apply (buy_calls calm _ _ "XYZ" "agent" 10 _ _ eq_refl eq_refl Hrun).
  vm_compute. discriminate.
Defined.

(** X25: the calls of a sell whose order is placed, in order: the ledger is
    read under the gate; then, with the gate free, the price is looked up,
    the broker's positions are asked for and the order is qualified, placed
    and waited for; then the session is closed.  No append and no flag
    write follows. *)
Theorem sell_calls (w : world) (st st' : store) (symbol s : string)
    (amount : Z) (trade : ib_trade) (o : outcome result) :
  signature_of w = Some s ->
  w_place w = inr trade ->
  run w (sell symbol amount) st = (o, st') ->
  count_events is_order (new_events st st') <> 0%nat ->
  new_events st st'
  = [ EGetConfig "SIGNATURE"; EGetConfig "TODAY_DATE"; EConnect;
      EAcquire s; ERead s; ERelease s;
      EPrice symbol; EPositions;
      EQualify symbol; EPlaceOrder symbol "SELL" amount; ESleep;
      EDisconnect ].
Proof.
  unfold signature_of. intros Hs Hp. unfold sell.
  sym_exec; intros [= <- <-] Hlog; log_in Hlog; try done;
    simplify_eq; by new_log.
Qed.

Lemma sell_calls_witness :
  exists o st',
    run calm_sell (sell "XYZ" 4) after_first_buy = (o, st')
    /\ new_events after_first_buy st'
       = [ EGetConfig "SIGNATURE"; EGetConfig "TODAY_DATE"; EConnect;
           EAcquire "agent"; ERead "agent"; ERelease "agent";
           EPrice "XYZ"; EPositions;
           EQualify "XYZ"; EPlaceOrder "XYZ" "SELL" 4; ESleep;
           EDisconnect ].
Proof.
  eassert (Hrun : run calm_sell (sell "XYZ" 4) after_first_buy = (_, _))
    by (vm_compute; reflexivity).
  eexists _, _. split; [exact Hrun|].
  apply (sell_calls calm_sell _ _ "XYZ" "agent" 4 _ _ eq_refl eq_refl Hrun).
  vm_compute. discriminate.
Defined.
